(** * Application state controller of the fridge-to-recipes app

    A shallow embedding of the [App] component (the React function
    component holding the five [useState] cells) and of [types.ts],
    followed by the properties of its handlers.

    Conventions of the embedding:
    - the five [useState] cells are one record, [AppModel]; a setter is a
      function on that record, taking the updater that React would apply
      to the previous value (a plain value [v] is the updater [fun _ => v]);
    - a handler reads the cells of the render it was created in, so it is
      a function of that snapshot;
    - an [async] handler is a [Task]: the record committed before its
      [await], the request it is waiting for, and the continuation that
      turns the settled promise into updates of the then-current record;
    - the remote service and the browser's file reader are an environment
      [Env] of functions returning [Outcome]s (a promise that fulfils with a
      value, or rejects). *)

From Stdlib Require Import ZArith String Ascii DecimalString DecimalPos DecimalN.
From stdpp Require Import base list strings.


(** ** types.ts *)

Module Ingredient.
Record t := mk {
  id : string;
  name : string;
  possibleAlternates : list string
}.

(** The object spread [{ ...ing, name }]: every field copied, [name]
    overridden. *)
Definition with_name (ing : t) (n : string) : t :=
  {| id := id ing; name := n; possibleAlternates := possibleAlternates ing |}.
End Ingredient.

Inductive Difficulty := Easy | Medium | Hard.

Module Recipe.
Record t := mk {
  id : string;
  title : string;
  description : string;
  prepTime : string;
  difficulty : Difficulty;
  ingredientsNeeded : list string;
  instructions : list string
}.
End Recipe.

Inductive AppState := IDLE | ANALYZING | EDITING | GENERATING | RESULTS.

(** ** The component's state cells *)

Record AppModel := mkApp {
  state : AppState;
  capturedImages : list string;
  ingredients : list Ingredient.t;
  recipes : list Recipe.t;
  error : option string
}.

(** [useState] initial values. *)
Definition initial : AppModel :=
  {| state := IDLE; capturedImages := []; ingredients := [];
     recipes := []; error := None |}.

Definition setState (s : AppState) (m : AppModel) : AppModel :=
  {| state := s; capturedImages := capturedImages m;
     ingredients := ingredients m; recipes := recipes m; error := error m |}.

Definition setCapturedImages (f : list string -> list string) (m : AppModel)
  : AppModel :=
  {| state := state m; capturedImages := f (capturedImages m);
     ingredients := ingredients m; recipes := recipes m; error := error m |}.

Definition setIngredients (f : list Ingredient.t -> list Ingredient.t)
  (m : AppModel) : AppModel :=
  {| state := state m; capturedImages := capturedImages m;
     ingredients := f (ingredients m); recipes := recipes m; error := error m |}.

Definition setRecipes (f : list Recipe.t -> list Recipe.t) (m : AppModel)
  : AppModel :=
  {| state := state m; capturedImages := capturedImages m;
     ingredients := ingredients m; recipes := f (recipes m); error := error m |}.

Definition setError (e : option string) (m : AppModel) : AppModel :=
  {| state := state m; capturedImages := capturedImages m;
     ingredients := ingredients m; recipes := recipes m; error := e |}.

(** ** Array helpers *)

(** [Array.prototype.filter] with the two-argument callback
    [(element, index) => ...]; [i] is the index of the head of [l]. *)
Fixpoint filter_from {A} (p : A -> nat -> bool) (i : nat) (l : list A) : list A :=
  match l with
  | [] => []
  | x :: l' =>
      if p x i then x :: filter_from p (S i) l' else filter_from p (S i) l'
  end.

Definition filter_idx {A} (p : A -> nat -> bool) (l : list A) : list A :=
  filter_from p 0 l.

(** ** Synchronous handlers *)

(** [removeImage]: [prev.filter((_, i) => i !== index)].  The argument is a
    JavaScript number; the component only ever passes an array index, and
    the model takes any integer. *)
Definition removeImage (index : Z) (m : AppModel) : AppModel :=
  setCapturedImages
    (fun prev => filter_idx (fun _ i => negb (Z.of_nat i =? index)%Z) prev) m.

(** Decimal rendering of [Date.now()] inside the template literal. *)
Definition decimal (n : N) : string :=
  DecimalString.NilZero.string_of_uint (N.to_uint n).

(** [handleAddIngredient]: appends to the [ingredients] of the render the
    handler closes over; [now] is the value of [Date.now()]. *)
Definition handleAddIngredient (now : N) (m : AppModel) : AppModel :=
  let newIng :=
    {| Ingredient.id := "manual-" +:+ decimal now;
       Ingredient.name := "New Item";
       Ingredient.possibleAlternates := [] |} in
  setIngredients (fun _ => ingredients m ++ [newIng]) m.

Definition updateIngredientName (id name : string) (m : AppModel) : AppModel :=
  setIngredients
    (fun prev =>
       map (fun ing =>
              if String.eqb (Ingredient.id ing) id
              then Ingredient.with_name ing name else ing) prev) m.

Definition swapIngredient (id newName : string) (m : AppModel) : AppModel :=
  setIngredients
    (fun prev =>
       map (fun ing =>
              if String.eqb (Ingredient.id ing) id
              then Ingredient.with_name ing newName else ing) prev) m.

Definition removeIngredient (id : string) (m : AppModel) : AppModel :=
  setIngredients
    (fun prev =>
       List.filter (fun ing => negb (String.eqb (Ingredient.id ing) id)) prev) m.

Definition reset (m : AppModel) : AppModel :=
  setState IDLE
    (setCapturedImages (fun _ => [])
       (setRecipes (fun _ => []) (setIngredients (fun _ => []) m))).

(** ** What the render offers *)

(** The camera and upload buttons are rendered only on the [IDLE] screen
    and only while [capturedImages.length < 10]. *)
Definition captureEnabled (m : AppModel) : bool :=
  match state m with
  | IDLE => length (capturedImages m) <? 10
  | _ => false
  end.

(** The analyse button is [disabled] while [capturedImages.length === 0]. *)
Definition analyzeDisabled (m : AppModel) : bool :=
  length (capturedImages m) =? 0.

(** ** Promises and asynchronous handlers *)

Inductive Outcome (A : Type) :=
| Fulfilled (a : A)
| Rejected.
Arguments Fulfilled {A} a.
Arguments Rejected {A}.

(** [Promise.all]: fulfils with every value, in order, when all promises
    fulfil; rejects as soon as one rejects. *)
Fixpoint promise_all {A} (ps : list (Outcome A)) : Outcome (list A) :=
  match ps with
  | [] => Fulfilled []
  | Fulfilled a :: ps' =>
      match promise_all ps' with
      | Fulfilled l => Fulfilled (a :: l)
      | Rejected => Rejected
      end
  | Rejected :: _ => Rejected
  end.

Section Controller.

(** A picked file, as the browser hands it over. *)
Context {File : Type}.

(** The collaborators: the [FileReader] promise of [handleFileUpload]
    (the base64 part of the data URL of a file), and the two entry
    points of the remote service. *)
Record Env := mkEnv {
  readBase64 : File -> Outcome string;
  analyzeFridgeImage : list string -> Outcome (list Ingredient.t);
  generateRecipes :
    list string -> option (list string) -> Outcome (list Recipe.t)
}.

(** What a suspended handler is waiting for. *)
Inductive Request :=
| ReadFiles (files : list File)
| Analyze (images : list string)
| Generate (ingredientNames : list string)
           (excludeTitles : option (list string)).

(** A handler either finishes synchronously or commits a record and
    waits; the continuation receives the outcome and the record that is
    current when the promise settles. *)
Inductive Task :=
| Return (m : AppModel)
| AwaitRead (m : AppModel) (files : list File)
    (k : Outcome (list string) -> AppModel -> AppModel)
| AwaitAnalyze (m : AppModel) (images : list string)
    (k : Outcome (list Ingredient.t) -> AppModel -> AppModel)
| AwaitGenerate (m : AppModel) (ingredientNames : list string)
    (excludeTitles : option (list string))
    (k : Outcome (list Recipe.t) -> AppModel -> AppModel).

(** The record rendered while the handler is suspended (or after it
    returned). *)
Definition rendered (t : Task) : AppModel :=
  match t with
  | Return m | AwaitRead m _ _ | AwaitAnalyze m _ _ | AwaitGenerate m _ _ _ => m
  end.

Definition request (t : Task) : option Request :=
  match t with
  | Return _ => None
  | AwaitRead _ files _ => Some (ReadFiles files)
  | AwaitAnalyze _ images _ => Some (Analyze images)
  | AwaitGenerate _ names excl _ => Some (Generate names excl)
  end.

(** Running a handler to completion with nothing else interleaved: at
    most one request is outstanding, so the record current at settle time
    is the rendered one. *)
Definition run (env : Env) (t : Task) : AppModel :=
  match t with
  | Return m => m
  | AwaitRead m files k => k (promise_all (map (readBase64 env) files)) m
  | AwaitAnalyze m images k => k (analyzeFridgeImage env images) m
  | AwaitGenerate m names excl k => k (generateRecipes env names excl) m
  end.

(** [handleFileUpload]; [files] is [e.target.files] ([None] for null).
    Clearing the two input elements afterwards touches the DOM only. *)
Definition handleFileUpload (files : option (list File)) (m : AppModel)
  : Task :=
  match files with
  | None | Some [] => Return m
  | Some fs =>
      AwaitRead (setError None m) fs
        (fun out cur =>
           match out with
           | Fulfilled base64Results =>
               setCapturedImages (fun prev => prev ++ base64Results) cur
           | Rejected =>
               setError (Some "Failed to process one or more images.") cur
           end)
  end.

Definition handleStartAnalysis (m : AppModel) : Task :=
  if length (capturedImages m) =? 0 then Return m
  else
    AwaitAnalyze (setError None (setState ANALYZING m)) (capturedImages m)
      (fun out cur =>
         match out with
         | Fulfilled detected =>
             setState EDITING (setIngredients (fun _ => detected) cur)
         | Rejected =>
             setState IDLE
               (setError (Some "Failed to analyze images. Please try again.")
                  cur)
         end).

Definition handleGenerateRecipes (m : AppModel) : Task :=
  let ingredientNames := map Ingredient.name (ingredients m) in
  AwaitGenerate (setState GENERATING m) ingredientNames None
    (fun out cur =>
       match out with
       | Fulfilled results =>
           setState RESULTS (setRecipes (fun _ => results) cur)
       | Rejected =>
           setState EDITING
             (setError (Some "Failed to generate recipes.") cur)
       end).

Definition handleMoreSuggestions (m : AppModel) : Task :=
  let ingredientNames := map Ingredient.name (ingredients m) in
  let existingTitles := map Recipe.title (recipes m) in
  AwaitGenerate (setState GENERATING m) ingredientNames (Some existingTitles)
    (fun out cur =>
       match out with
       | Fulfilled moreResults =>
           setState RESULTS (setRecipes (fun prev => prev ++ moreResults) cur)
       | Rejected =>
           setState RESULTS
             (setError (Some "Failed to get more suggestions.") cur)
       end).

(** *** What the user can do on the [IDLE] screen

    The two capture buttons open the pickers that feed [handleFileUpload];
    each rendered thumbnail carries a button calling [removeImage] with
    its own index. *)
Inductive IdleAction :=
| AddImages (files : list File)
| RemoveImage (idx : nat).

(** Whether the render of [m] contains the control that triggers [a]. *)
Definition offered (a : IdleAction) (m : AppModel) : bool :=
  match a with
  | AddImages _ => captureEnabled m
  | RemoveImage idx =>
      match state m with
      | IDLE => idx <? length (capturedImages m)
      | _ => false
      end
  end.

Definition perform (env : Env) (a : IdleAction) (m : AppModel) : AppModel :=
  match a with
  | AddImages files => run env (handleFileUpload (Some files) m)
  | RemoveImage idx => removeImage (Z.of_nat idx) m
  end.

(** A session of actions, each of which must be offered by the render it
    is made on ([None] when one is not). *)
Fixpoint session (env : Env) (acts : list IdleAction) (m : AppModel)
  : option AppModel :=
  match acts with
  | [] => Some m
  | a :: acts' =>
      if offered a m then session env acts' (perform env a m) else None
  end.


(** *** Every control of the interface

    One constructor per control of the JSX: the two pickers (change event
    of either input), the remove button of a thumbnail, the analyse
    button, and on the [EDITING] screen the add button, the name input,
    the alternate buttons and the remove button of a rendered ingredient
    and the suggest button; on the [RESULTS] screen the more and reset
    buttons; the dismiss button of the notice. *)
Inductive UserAction :=
| PickFiles (files : list File)
| ClickRemoveImage (idx : nat)
| ClickAnalyze
| ClickAddItem (now : N)
| TypeName (id name : string)
| ClickAlternate (id alt : string)
| ClickRemoveIngredient (id : string)
| ClickSuggest
| ClickMore
| ClickReset
| ClickDismiss.

(** [onClick={() => setError(null)}] of the notice. *)
Definition dismissNotice (m : AppModel) : AppModel := setError None m.

(** [ingredients.map(ing => ...)] renders controls bound to [ing.id]. *)
Definition rendersIngredient (id : string) (m : AppModel) : bool :=
  existsb (fun ing => String.eqb (Ingredient.id ing) id) (ingredients m).

(** [ing.possibleAlternates.map(alt => ...)] renders a button bound to
    [ing.id] and [alt]. *)
Definition rendersAlternate (id alt : string) (m : AppModel) : bool :=
  existsb
    (fun ing =>
       String.eqb (Ingredient.id ing) id
       && existsb (String.eqb alt) (Ingredient.possibleAlternates ing))
    (ingredients m).

(** Whether the render of [m] contains the control of [a], enabled. *)
Definition available (a : UserAction) (m : AppModel) : bool :=
  match a, state m with
  | PickFiles _, _ => captureEnabled m
  | ClickRemoveImage idx, IDLE => idx <? length (capturedImages m)
  | ClickAnalyze, IDLE => negb (analyzeDisabled m)
  | ClickAddItem _, EDITING => true
  | TypeName id _, EDITING => rendersIngredient id m
  | ClickAlternate id alt, EDITING => rendersAlternate id alt m
  | ClickRemoveIngredient id, EDITING => rendersIngredient id m
  | ClickSuggest, EDITING => true
  | ClickMore, RESULTS => true
  | ClickReset, RESULTS => true
  | ClickDismiss, _ =>
      match error m with
      | Some msg => negb (String.eqb msg "")
      | None => false
      end
  | _, _ => false
  end.

(** The handler wired to the control, run to completion. *)
Definition act (env : Env) (a : UserAction) (m : AppModel) : AppModel :=
  match a with
  | PickFiles files => run env (handleFileUpload (Some files) m)
  | ClickRemoveImage idx => removeImage (Z.of_nat idx) m
  | ClickAnalyze => run env (handleStartAnalysis m)
  | ClickAddItem now => handleAddIngredient now m
  | TypeName id name => updateIngredientName id name m
  | ClickAlternate id alt => swapIngredient id alt m
  | ClickRemoveIngredient id => removeIngredient id m
  | ClickSuggest => run env (handleGenerateRecipes m)
  | ClickMore => run env (handleMoreSuggestions m)
  | ClickReset => reset m
  | ClickDismiss => dismissNotice m
  end.

(** A use of the application: each action comes with the behaviour of
    the collaborators at that moment, and must be available on the render
    it is made on. *)
Fixpoint usage (steps : list (Env * UserAction)) (m : AppModel)
  : option AppModel :=
  match steps with
  | [] => Some m
  | (env, a) :: steps' =>
      if available a m then usage steps' (act env a m) else None
  end.

End Controller.

Arguments UserAction : clear implicits.
Arguments Env : clear implicits.
Arguments Task : clear implicits.
Arguments Request : clear implicits.
Arguments IdleAction : clear implicits.

(** ** Concrete data used by the examples below *)

Module Sample.
(** A picked file is represented by the payload its reader yields. *)
Definition read_ok (f : string) : Outcome string := Fulfilled f.

Definition milk : Ingredient.t :=
  {| Ingredient.id := "1"; Ingredient.name := "Milk";
     Ingredient.possibleAlternates := ["Cream"] |}.

Definition eggs : Ingredient.t :=
  {| Ingredient.id := "2"; Ingredient.name := "Eggs";
     Ingredient.possibleAlternates := [] |}.

Definition custard : Recipe.t :=
  {| Recipe.id := "r1"; Recipe.title := "Custard";
     Recipe.description := "Baked custard"; Recipe.prepTime := "40 min";
     Recipe.difficulty := Easy;
     Recipe.ingredientsNeeded := ["Milk"; "Eggs"];
     Recipe.instructions := ["Whisk"; "Bake"] |}.

Definition omelette : Recipe.t :=
  {| Recipe.id := "r2"; Recipe.title := "Omelette";
     Recipe.description := "Plain omelette"; Recipe.prepTime := "10 min";
     Recipe.difficulty := Medium;
     Recipe.ingredientsNeeded := ["Eggs"];
     Recipe.instructions := ["Beat"; "Fry"] |}.

(** A service that answers. *)
Definition online : Env string :=
  {| readBase64 := read_ok;
     analyzeFridgeImage := fun _ => Fulfilled [milk];
     generateRecipes := fun _ excl =>
       match excl with
       | None => Fulfilled [custard]
       | Some _ => Fulfilled [omelette]
       end |}.

(** A service whose every call rejects. *)
Definition offline : Env string :=
  {| readBase64 := read_ok;
     analyzeFridgeImage := fun _ => Rejected;
     generateRecipes := fun _ _ => Rejected |}.

Definition one_image : AppModel :=
  {| state := IDLE; capturedImages := ["imgA"]; ingredients := [];
     recipes := []; error := None |}.

Definition editing : AppModel :=
  {| state := EDITING; capturedImages := ["imgA"];
     ingredients := [milk; eggs]; recipes := []; error := None |}.

Definition results : AppModel :=
  {| state := RESULTS; capturedImages := ["imgA"];
     ingredients := [milk; eggs]; recipes := [custard]; error := None |}.

(** One selection in the multi-file picker. *)
Definition eleven_files : list string :=
  ["f0"; "f1"; "f2"; "f3"; "f4"; "f5"; "f6"; "f7"; "f8"; "f9"; "f10"].
End Sample.

(** What holds of the data on each screen between two actions. *)
Definition settled (m : AppModel) : Prop :=
  match state m with
  | IDLE => ingredients m = [] /\ recipes m = []
  | EDITING => capturedImages m <> [] /\ recipes m = []
  | RESULTS => capturedImages m <> []
  | ANALYZING | GENERATING => False
  end.

(** The identifiers of the ingredient list, in order. *)
Definition ingredientIds (m : AppModel) : list string :=
  map Ingredient.id (ingredients m).

Module Scenario.
(** A reader that fails on the file named [bad]. *)
Definition read_unless_bad (f : string) : Outcome string :=
  if String.eqb f "bad" then Rejected else Fulfilled f.

Definition flaky : Env string :=
  {| readBase64 := read_unless_bad;
     analyzeFridgeImage := fun _ => Fulfilled [Sample.milk; Sample.eggs];
     generateRecipes := fun _ excl =>
       match excl with
       | None => Fulfilled [Sample.custard]
       | Some _ => Fulfilled [Sample.omelette]
       end |}.

Definition three_images : AppModel :=
  {| state := IDLE; capturedImages := ["a"; "b"; "c"]; ingredients := [];
     recipes := []; error := Some "Failed to analyze images. Please try again." |}.

(** Two shots with a removal in between. *)
Definition shots : list (IdleAction string) :=
  [AddImages ["x"]; RemoveImage 0; AddImages ["y"]; AddImages ["z"]].

(** An evening with the application: one photo, an analysis that fails and
    one that works, an edit, a generation that fails and one that works,
    one more round of suggestions, and a dismissed notice. *)
Definition evening : list (Env string * UserAction string) :=
  [(Sample.online, PickFiles ["imgA"]);
   (Sample.offline, ClickAnalyze);
   (Sample.online, ClickAnalyze);
   (Sample.online, ClickAlternate "1" "Cream");
   (Sample.online, ClickAddItem 1700000000000%N);
   (Sample.offline, ClickSuggest);
   (Sample.online, ClickSuggest);
   (Sample.online, ClickMore);
   (Sample.online, ClickDismiss)].

Definition evening_end : AppModel :=
  {| state := RESULTS;
     capturedImages := ["imgA"];
     ingredients :=
       [ {| Ingredient.id := "1"; Ingredient.name := "Cream";
            Ingredient.possibleAlternates := ["Cream"] |};
         {| Ingredient.id := "manual-1700000000000";
            Ingredient.name := "New Item";
            Ingredient.possibleAlternates := [] |} ];
     recipes := [Sample.custard; Sample.omelette];
     error := None |}.
End Scenario.

(** * Properties *)

(** ** Arrays *)

Lemma lookup_map {A B} (f : A -> B) (l : list A) (i : nat) :
  map f l !! i = f <$> (l !! i).
Proof.
  revert i. induction l as [|x l IH]; intros [|i]; simpl; auto.
Qed.

Lemma map_id_on {A} (f : A -> A) (l : list A) :
  (forall x, x ∈ l -> f x = x) -> map f l = l.
Proof.
  induction l as [|x l IH]; intros H; simpl; [reflexivity|].
  rewrite H by apply list_elem_of_here.
  rewrite IH; [reflexivity|].
  intros y Hy. apply H. by apply list_elem_of_further.
Qed.

Lemma filter_all {A} (p : A -> bool) (l : list A) :
  (forall x, x ∈ l -> p x = true) -> List.filter p l = l.
Proof.
  induction l as [|x l IH]; intros H; simpl; [reflexivity|].
  rewrite H by apply list_elem_of_here.
  rewrite IH; [reflexivity|].
  intros y Hy. apply H. by apply list_elem_of_further.
Qed.

(** Filtering on "index differs from [index]" keeps everything when no
    position of the array carries that index. *)
Lemma filter_from_miss {A} (index : Z) (l : list A) (i : nat) :
  (index < Z.of_nat i \/ Z.of_nat (i + length l) <= index)%Z ->
  filter_from (fun _ k => negb (Z.of_nat k =? index)%Z) i l = l.
Proof.
  revert i. induction l as [|x l IH]; intros i H; simpl; [reflexivity|].
  simpl in H.
  replace (Z.of_nat i =? index)%Z with false by (symmetry; apply Z.eqb_neq; lia).
  simpl. rewrite IH; [reflexivity | lia].
Qed.

(** ... and drops exactly the entry at that position otherwise. *)
Lemma filter_from_hit {A} (l : list A) (i n : nat) :
  n < length l ->
  filter_from (fun _ k => negb (Z.of_nat k =? Z.of_nat (i + n))%Z) i l
  = take n l ++ drop (S n) l.
Proof.
  revert i n. induction l as [|x l IH]; intros i n Hn; simpl in *; [lia|].
  destruct n as [|n].
  - rewrite Nat.add_0_r, Z.eqb_refl. simpl.
    apply filter_from_miss. lia.
  - replace (Z.of_nat i =? Z.of_nat (i + S n))%Z with false
      by (symmetry; apply Z.eqb_neq; lia).
    simpl. f_equal.
    replace (i + S n) with (S i + n) by lia.
    apply IH. lia.
Qed.

Lemma promise_all_fulfilled_length {A} (ps : list (Outcome A)) (l : list A) :
  promise_all ps = Fulfilled l -> length l = length ps.
Proof.
  revert l. induction ps as [|[a|] ps IH]; intros l H; simpl in H.
  - by inversion H.
  - destruct (promise_all ps) as [l'|]; [|discriminate].
    inversion H; subst. simpl. f_equal. by apply IH.
  - discriminate.
Qed.

(** ** Editing the capture list *)

(** Removing at a position inside the array deletes that entry and keeps
    the others in their order. *)
Lemma removeImage_in_bounds (n : nat) (m : AppModel) :
  n < length (capturedImages m) ->
  capturedImages (removeImage (Z.of_nat n) m)
  = take n (capturedImages m) ++ drop (S n) (capturedImages m).
Proof.
  intros Hn. unfold removeImage, filter_idx. simpl.
  exact (filter_from_hit (capturedImages m) 0 n Hn).
Qed.


Lemma removeImage_frame (index : Z) (m : AppModel) :
  state (removeImage index m) = state m /\
  ingredients (removeImage index m) = ingredients m /\
  recipes (removeImage index m) = recipes m /\
  error (removeImage index m) = error m.
Proof. repeat split. Qed.

(** ** Editing the ingredient list *)

Lemma rename_lookup (id0 n : string) (l : list Ingredient.t) (i : nat) :
  map (fun ing => if String.eqb (Ingredient.id ing) id0
                  then Ingredient.with_name ing n else ing) l !! i
  = (fun ing => if String.eqb (Ingredient.id ing) id0
                then Ingredient.with_name ing n else ing) <$> (l !! i).
Proof. apply lookup_map. Qed.

(** C6: [swapIngredient id alt] keeps the length and the positions of the
    ingredient list; an ingredient whose identifier is [id] comes out with
    the name [alt] and the same identifier and alternates; every other
    ingredient comes out as it went in; no other cell of the state
    changes. *)
Theorem swapIngredient_spec (id0 alt : string) (m : AppModel) :
  length (ingredients (swapIngredient id0 alt m)) = length (ingredients m) /\
  (forall (i : nat) (ing : Ingredient.t),
      ingredients m !! i = Some ing ->
      (Ingredient.id ing = id0 ->
       ingredients (swapIngredient id0 alt m) !! i
       = Some {| Ingredient.id := Ingredient.id ing;
                 Ingredient.name := alt;
                 Ingredient.possibleAlternates :=
                   Ingredient.possibleAlternates ing |}) /\
      (Ingredient.id ing <> id0 ->
       ingredients (swapIngredient id0 alt m) !! i = Some ing)) /\
  state (swapIngredient id0 alt m) = state m /\
  capturedImages (swapIngredient id0 alt m) = capturedImages m /\
  recipes (swapIngredient id0 alt m) = recipes m /\
  error (swapIngredient id0 alt m) = error m.
Proof.
  unfold swapIngredient. simpl. split; [apply length_map|].
  split; [|repeat split].
  intros i ing Hi. rewrite rename_lookup, Hi. simpl. split; intros Hid.
  - apply String.eqb_eq in Hid. by rewrite Hid.
  - apply String.eqb_neq in Hid. by rewrite Hid.
Qed.

(** C9: at every position of the ingredient list, [updateIngredientName]
    and [swapIngredient] return an ingredient with the identifier and the
    alternates of the one that was there, renamed when it is the target;
    an alternate accepted through [swapIngredient] is still among the
    target's alternates afterwards. *)
Theorem rename_keeps_id_and_alternates
  (id0 n : string) (m : AppModel) (i : nat) (ing : Ingredient.t) :
  ingredients m !! i = Some ing ->
  (exists ing',
      ingredients (updateIngredientName id0 n m) !! i = Some ing' /\
      Ingredient.id ing' = Ingredient.id ing /\
      Ingredient.possibleAlternates ing' = Ingredient.possibleAlternates ing /\
      (Ingredient.id ing = id0 -> Ingredient.name ing' = n)) /\
  (exists ing',
      ingredients (swapIngredient id0 n m) !! i = Some ing' /\
      Ingredient.id ing' = Ingredient.id ing /\
      Ingredient.possibleAlternates ing' = Ingredient.possibleAlternates ing /\
      (Ingredient.id ing = id0 -> Ingredient.name ing' = n) /\
      (n ∈ Ingredient.possibleAlternates ing ->
       n ∈ Ingredient.possibleAlternates ing')).
Proof.
  intros Hi. unfold updateIngredientName, swapIngredient. simpl.
  rewrite rename_lookup, Hi. simpl.
  destruct (String.eqb_spec (Ingredient.id ing) id0) as [Heq|Hne].
  - split; eexists; (split; [reflexivity|]); simpl; auto.
  - split; eexists; (split; [reflexivity|]); simpl;
      repeat split; auto; intros; contradiction.
Qed.

(** C10: an edit addressed to nothing returns the state it was given:
    [removeImage] at an index below 0 or at or beyond the length of the
    capture list, and [updateIngredientName], [swapIngredient] and
    [removeIngredient] at an identifier carried by no ingredient.  The
    whole record is returned, so the screen and the error notice stay as
    they were; the functions are total, so nothing is raised. *)
Theorem unmatched_edit_is_noop (m : AppModel) :
  (forall index : Z,
      (index < 0 \/ Z.of_nat (length (capturedImages m)) <= index)%Z ->
      removeImage index m = m) /\
  (forall id0 n : string,
      (forall ing, ing ∈ ingredients m -> Ingredient.id ing <> id0) ->
      updateIngredientName id0 n m = m /\
      swapIngredient id0 n m = m /\
      removeIngredient id0 m = m).
Proof.
  destruct m as [st imgs ings recs err]. split.
  - intros index H. unfold removeImage, setCapturedImages, filter_idx.
    simpl in *. f_equal. apply filter_from_miss. simpl. lia.
  - intros id0 n H. simpl in H.
    unfold updateIngredientName, swapIngredient, removeIngredient,
      setIngredients. simpl.
    repeat split; f_equal.
    + apply map_id_on. intros ing Hing.
      apply H, String.eqb_neq in Hing. by rewrite Hing.
    + apply map_id_on. intros ing Hing.
      apply H, String.eqb_neq in Hing. by rewrite Hing.
    + apply filter_all. intros ing Hing.
      apply H, String.eqb_neq in Hing. by rewrite Hing.
Qed.

(** C7: whatever the state, [reset] leaves no captured image, no
    ingredient and no recipe, and shows the [IDLE] screen. *)
Theorem reset_clears (m : AppModel) :
  capturedImages (reset m) = [] /\
  ingredients (reset m) = [] /\
  recipes (reset m) = [] /\
  state (reset m) = IDLE.
Proof. repeat split. Qed.

(** ** Asynchronous handlers *)

Section Handlers.

Context {File : Type} (env : Env File).

Lemma nonempty_length_eqb {A} (l : list A) :
  l <> [] -> (length l =? 0) = false.
Proof. destruct l; [congruence | reflexivity]. Qed.

(** A non-empty capture list makes [handleStartAnalysis] show the
    [ANALYZING] screen, drop the notice and ask for the analysis of all
    captured images. *)
Lemma handleStartAnalysis_suspends (m : AppModel) :
  capturedImages m <> [] ->
  rendered (handleStartAnalysis (File:=File) m)
  = setError None (setState ANALYZING m) /\
  request (handleStartAnalysis (File:=File) m)
  = Some (Analyze (capturedImages m)).
Proof.
  intros H. unfold handleStartAnalysis.
  rewrite (nonempty_length_eqb _ H). split; reflexivity.
Qed.

(** C2: with a non-empty capture list and an analysis that fulfils with
    [L], [handleStartAnalysis] ends on the [EDITING] screen with [L] as
    the ingredient list. *)
Theorem handleStartAnalysis_success (m : AppModel) (L : list Ingredient.t) :
  capturedImages m <> [] ->
  analyzeFridgeImage env (capturedImages m) = Fulfilled L ->
  state (run env (handleStartAnalysis m)) = EDITING /\
  ingredients (run env (handleStartAnalysis m)) = L.
Proof.
  intros Hne Hok. unfold handleStartAnalysis.
  rewrite (nonempty_length_eqb _ Hne). simpl. rewrite Hok.
  split; reflexivity.
Qed.

(** C3: with a non-empty capture list and an analysis that rejects,
    [handleStartAnalysis] ends on the [IDLE] screen with the capture list
    it started from and the fixed analysis notice. *)
Theorem handleStartAnalysis_failure (m : AppModel) :
  capturedImages m <> [] ->
  analyzeFridgeImage env (capturedImages m) = Rejected ->
  state (run env (handleStartAnalysis m)) = IDLE /\
  capturedImages (run env (handleStartAnalysis m)) = capturedImages m /\
  error (run env (handleStartAnalysis m))
  = Some "Failed to analyze images. Please try again.".
Proof.
  intros Hne Hko. unfold handleStartAnalysis.
  rewrite (nonempty_length_eqb _ Hne). simpl. rewrite Hko.
  repeat split.
Qed.

(** C8: with an empty capture list [handleStartAnalysis] returns at once:
    it waits for no request, and the state it leaves is the state it
    found, in every cell; in particular an [IDLE] screen stays [IDLE]. *)
Theorem handleStartAnalysis_empty (m : AppModel) :
  capturedImages m = [] ->
  request (handleStartAnalysis (File:=File) m) = None /\
  run env (handleStartAnalysis m) = m /\
  (state m = IDLE -> state (run env (handleStartAnalysis m)) = IDLE).
Proof.
  intros H. unfold handleStartAnalysis. rewrite H. simpl. auto.
Qed.

(** C4: [handleGenerateRecipes] shows the [GENERATING] screen and asks
    for recipes for the names of the current ingredients, with no titles
    to avoid.  If the call fulfils with [R], the recipe list becomes [R]
    and the screen [RESULTS]; if it rejects, the generation notice is
    set and the screen is [EDITING].  Either way the final screen is not
    [GENERATING]. *)
Theorem handleGenerateRecipes_spec (m : AppModel) :
  rendered (handleGenerateRecipes (File:=File) m) = setState GENERATING m /\
  request (handleGenerateRecipes (File:=File) m)
  = Some (Generate (map Ingredient.name (ingredients m)) None) /\
  (forall R : list Recipe.t,
      generateRecipes env (map Ingredient.name (ingredients m)) None
      = Fulfilled R ->
      recipes (run env (handleGenerateRecipes m)) = R /\
      state (run env (handleGenerateRecipes m)) = RESULTS) /\
  (generateRecipes env (map Ingredient.name (ingredients m)) None
   = Rejected ->
   error (run env (handleGenerateRecipes m))
   = Some "Failed to generate recipes." /\
   state (run env (handleGenerateRecipes m)) = EDITING) /\
  state (run env (handleGenerateRecipes m)) <> GENERATING.
Proof.
  unfold handleGenerateRecipes. simpl.
  split; [reflexivity|]. split; [reflexivity|].
  split; [|split].
  - intros R Hok. rewrite Hok. split; reflexivity.
  - intros Hko. rewrite Hko. split; reflexivity.
  - destruct (generateRecipes env _ None); simpl; discriminate.
Qed.

(** C5: [handleMoreSuggestions] asks for recipes for the names of the
    current ingredients, passing the titles of the recipes already shown.
    If the call fulfils with [R], the recipe list becomes the former list
    followed by [R]; if it rejects, the suggestion notice is set and the
    recipe list is the former one.  Either way the screen is [RESULTS]. *)
Theorem handleMoreSuggestions_spec (m : AppModel) :
  request (handleMoreSuggestions (File:=File) m)
  = Some (Generate (map Ingredient.name (ingredients m))
            (Some (map Recipe.title (recipes m)))) /\
  (forall R : list Recipe.t,
      generateRecipes env (map Ingredient.name (ingredients m))
        (Some (map Recipe.title (recipes m))) = Fulfilled R ->
      recipes (run env (handleMoreSuggestions m)) = recipes m ++ R /\
      state (run env (handleMoreSuggestions m)) = RESULTS) /\
  (generateRecipes env (map Ingredient.name (ingredients m))
     (Some (map Recipe.title (recipes m))) = Rejected ->
   error (run env (handleMoreSuggestions m))
   = Some "Failed to get more suggestions." /\
   recipes (run env (handleMoreSuggestions m)) = recipes m /\
   state (run env (handleMoreSuggestions m)) = RESULTS).
Proof.
  unfold handleMoreSuggestions. simpl.
  split; [reflexivity|]. split.
  - intros R Hok. rewrite Hok. split; reflexivity.
  - intros Hko. rewrite Hko. repeat split.
Qed.

(** An upload whose files are all read appends their payloads, in the
    order of the selection, after the images already captured. *)
Lemma handleFileUpload_appends (f : File) (fs : list File) (m : AppModel)
  (payloads : list string) :
  promise_all (map (readBase64 env) (f :: fs)) = Fulfilled payloads ->
  capturedImages (run env (handleFileUpload (Some (f :: fs)) m))
  = capturedImages m ++ payloads /\
  length payloads = S (length fs).
Proof.
  intros H. unfold handleFileUpload, run. rewrite H. simpl.
  split; [reflexivity|].
  apply promise_all_fulfilled_length in H. by rewrite H, length_map.
Qed.


(** Neither capture handler leaves the [IDLE] screen. *)
Lemma perform_state (a : IdleAction File) (m : AppModel) :
  state (perform env a m) = state m.
Proof.
  destruct a as [[|f fs]|idx]; try reflexivity.
  unfold perform, handleFileUpload, run.
  destruct (promise_all _); reflexivity.
Qed.


End Handlers.

(** ** The ten-image bound *)

(** C1: on the initial [IDLE] screen the capture buttons are offered; the
    session made of one selection of eleven files in the upload picker,
    all read, is accepted and leaves eleven captured images, in the order
    of the selection, on the [IDLE] screen. *)
Theorem handleFileUpload_exceeds_ten :
  captureEnabled initial = true /\
  exists m' : AppModel,
    session Sample.online [AddImages Sample.eleven_files] initial = Some m' /\
    state m' = IDLE /\
    capturedImages m' = Sample.eleven_files /\
    length (capturedImages m') = 11.
Proof.
  split; [reflexivity|]. eexists. split; [reflexivity|]. repeat split.
Qed.

(** ** Instances on concrete data *)

Lemma handleStartAnalysis_success_example :
  capturedImages Sample.one_image <> [] /\
  analyzeFridgeImage Sample.online (capturedImages Sample.one_image)
  = Fulfilled [Sample.milk] /\
  state (run Sample.online (handleStartAnalysis Sample.one_image)) = EDITING /\
  ingredients (run Sample.online (handleStartAnalysis Sample.one_image))
  = [Sample.milk].
Proof.
  assert (Hne : capturedImages Sample.one_image <> []) by (simpl; discriminate).
  assert (Hok : analyzeFridgeImage Sample.online (capturedImages Sample.one_image)
                = Fulfilled [Sample.milk]) by reflexivity.
  split; [exact Hne|]. split; [exact Hok|].
  exact (handleStartAnalysis_success Sample.online Sample.one_image
           [Sample.milk] Hne Hok).
Defined.

Lemma handleStartAnalysis_failure_example :
  capturedImages Sample.one_image <> [] /\
  analyzeFridgeImage Sample.offline (capturedImages Sample.one_image)
  = Rejected /\
  state (run Sample.offline (handleStartAnalysis Sample.one_image)) = IDLE /\
  capturedImages (run Sample.offline (handleStartAnalysis Sample.one_image))
  = ["imgA"] /\
  error (run Sample.offline (handleStartAnalysis Sample.one_image))
  = Some "Failed to analyze images. Please try again.".
Proof.
  assert (Hne : capturedImages Sample.one_image <> []) by (simpl; discriminate).
  assert (Hko : analyzeFridgeImage Sample.offline
                  (capturedImages Sample.one_image) = Rejected) by reflexivity.
  split; [exact Hne|]. split; [exact Hko|].
  exact (handleStartAnalysis_failure Sample.offline Sample.one_image Hne Hko).
Defined.

Lemma handleStartAnalysis_empty_example :
  capturedImages initial = [] /\
  request (handleStartAnalysis (File:=string) initial) = None /\
  run Sample.online (handleStartAnalysis initial) = initial /\
  (state initial = IDLE ->
   state (run Sample.online (handleStartAnalysis initial)) = IDLE).
Proof.
  split; [reflexivity|].
  exact (handleStartAnalysis_empty Sample.online initial eq_refl).
Defined.

Lemma handleGenerateRecipes_example :
  (recipes (run Sample.online (handleGenerateRecipes Sample.editing))
   = [Sample.custard] /\
   state (run Sample.online (handleGenerateRecipes Sample.editing)) = RESULTS) /\
  (error (run Sample.offline (handleGenerateRecipes Sample.editing))
   = Some "Failed to generate recipes." /\
   state (run Sample.offline (handleGenerateRecipes Sample.editing)) = EDITING).
Proof.
  split.
  - destruct (handleGenerateRecipes_spec Sample.online Sample.editing)
      as (_ & _ & Hok & _ & _).
    apply (Hok [Sample.custard]). reflexivity.
  - destruct (handleGenerateRecipes_spec Sample.offline Sample.editing)
      as (_ & _ & _ & Hko & _).
    apply Hko. reflexivity.
Defined.

Lemma handleMoreSuggestions_example :
  (recipes (run Sample.online (handleMoreSuggestions Sample.results))
   = [Sample.custard; Sample.omelette] /\
   state (run Sample.online (handleMoreSuggestions Sample.results)) = RESULTS) /\
  (error (run Sample.offline (handleMoreSuggestions Sample.results))
   = Some "Failed to get more suggestions." /\
   recipes (run Sample.offline (handleMoreSuggestions Sample.results))
   = [Sample.custard] /\
   state (run Sample.offline (handleMoreSuggestions Sample.results)) = RESULTS).
Proof.
  split.
  - destruct (handleMoreSuggestions_spec Sample.online Sample.results)
      as (_ & Hok & _).
    apply (Hok [Sample.omelette]). reflexivity.
  - destruct (handleMoreSuggestions_spec Sample.offline Sample.results)
      as (_ & _ & Hko).
    apply Hko. reflexivity.
Defined.

Lemma swapIngredient_example :
  ingredients (swapIngredient "1" "Cream" Sample.editing) !! 0
  = Some {| Ingredient.id := "1"; Ingredient.name := "Cream";
            Ingredient.possibleAlternates := ["Cream"] |} /\
  ingredients (swapIngredient "1" "Cream" Sample.editing) !! 1
  = Some Sample.eggs.
Proof.
  destruct (swapIngredient_spec "1" "Cream" Sample.editing) as (_ & H & _).
  split.
  - destruct (H 0 Sample.milk eq_refl) as (Hhit & _).
    apply Hhit. reflexivity.
  - destruct (H 1 Sample.eggs eq_refl) as (_ & Hmiss).
    apply Hmiss. simpl. discriminate.
Defined.

Lemma rename_keeps_id_and_alternates_example :
  ingredients Sample.editing !! 0 = Some Sample.milk /\
  exists ing',
    ingredients (swapIngredient "1" "Cream" Sample.editing) !! 0 = Some ing' /\
    Ingredient.id ing' = "1" /\
    Ingredient.possibleAlternates ing' = ["Cream"] /\
    (Ingredient.id Sample.milk = "1" -> Ingredient.name ing' = "Cream") /\
    ("Cream" ∈ Ingredient.possibleAlternates Sample.milk ->
     "Cream" ∈ Ingredient.possibleAlternates ing').
Proof.
  split; [reflexivity|].
  exact (proj2 (rename_keeps_id_and_alternates "1" "Cream" Sample.editing 0
                  Sample.milk eq_refl)).
Defined.

Lemma unmatched_edit_is_noop_example :
  removeImage 1 Sample.one_image = Sample.one_image /\
  removeImage (-1) Sample.one_image = Sample.one_image /\
  updateIngredientName "3" "Butter" Sample.editing = Sample.editing /\
  swapIngredient "3" "Butter" Sample.editing = Sample.editing /\
  removeIngredient "3" Sample.editing = Sample.editing.
Proof.
  destruct (unmatched_edit_is_noop Sample.one_image) as (Himg & _).
  destruct (unmatched_edit_is_noop Sample.editing) as (_ & Hing).
  split; [apply Himg; simpl; lia|].
  split; [apply Himg; simpl; lia|].
  apply Hing. intros ing Hing'. simpl in Hing'.
  apply list_elem_of_In in Hing'. simpl in Hing'.
  destruct Hing' as [<-|[<-|[]]]; simpl; discriminate.
Defined.

(** * Further properties of the handlers *)

(** ** Promise.all *)

Lemma promise_all_fulfilled {A B} (read : A -> Outcome B) (xs : list A)
  (ys : list B) :
  Forall2 (fun x y => read x = Fulfilled y) xs ys ->
  promise_all (map read xs) = Fulfilled ys.
Proof.
  induction 1 as [|x y xs ys Hx _ IH]; simpl; [reflexivity|].
  by rewrite Hx, IH.
Qed.

Lemma promise_all_rejected {A B} (read : A -> Outcome B) (xs : list A) (x : A) :
  x ∈ xs -> read x = Rejected -> promise_all (map read xs) = Rejected.
Proof.
  intros Hin Hx. induction Hin as [x xs|x x' xs _ IH]; simpl.
  - by rewrite Hx.
  - destruct (read x'); [|reflexivity]. by rewrite (IH Hx).
Qed.

(** ** The capture list *)

(** X1: [removeImage] at a position inside the capture list shortens the
    list by exactly one entry: the entries before the position stay where
    they were, the entries after it move down by one, and no other cell of
    the state changes. *)
Theorem removeImage_removes_exactly (n : nat) (m : AppModel) :
  n < length (capturedImages m) ->
  S (length (capturedImages (removeImage (Z.of_nat n) m)))
  = length (capturedImages m) /\
  (forall j, j < n ->
     capturedImages (removeImage (Z.of_nat n) m) !! j = capturedImages m !! j) /\
  (forall j, n <= j ->
     capturedImages (removeImage (Z.of_nat n) m) !! j
     = capturedImages m !! S j) /\
  removeImage (Z.of_nat n) m
  = setCapturedImages (fun prev => take n prev ++ drop (S n) prev) m.
Proof.
  intros Hn. pose proof (removeImage_in_bounds n m Hn) as Heq.
  split; [|split; [|split]].
  - rewrite Heq, length_app, length_take, length_drop. lia.
  - intros j Hj. rewrite Heq, lookup_app_l by (rewrite length_take; lia).
    by apply lookup_take_lt.
  - intros j Hj. rewrite Heq, lookup_app_r by (rewrite length_take; lia).
    rewrite lookup_drop, length_take. f_equal. lia.
  - unfold removeImage, setCapturedImages in *. simpl in Heq. by rewrite Heq.
Qed.

Section Capture.

Context {File : Type} (env : Env File).

(** X2: when every file of a non-empty selection is read, [handleFileUpload]
    asks for exactly those files, appends their payloads after the images
    already captured, in the order of the selection, and clears the
    notice; the screen, the ingredients and the recipes are untouched. *)
Theorem handleFileUpload_all_read (f : File) (fs : list File)
  (payloads : list string) (m : AppModel) :
  Forall2 (fun file p => readBase64 env file = Fulfilled p) (f :: fs) payloads ->
  request (handleFileUpload (Some (f :: fs)) m) = Some (ReadFiles (f :: fs)) /\
  run env (handleFileUpload (Some (f :: fs)) m)
  = {| state := state m;
       capturedImages := capturedImages m ++ payloads;
       ingredients := ingredients m;
       recipes := recipes m;
       error := None |} /\
  length payloads = S (length fs).
Proof.
  intros Hall. split; [reflexivity|]. split.
  - unfold handleFileUpload, run.
    by rewrite (promise_all_fulfilled _ _ _ Hall).
  - apply Forall2_length in Hall. simpl in Hall. lia.
Qed.

(** X3: when the reading of one file of the selection rejects,
    [handleFileUpload] adds no image at all, not even those of the files
    that were read, and sets the image-processing notice; nothing else
    changes. *)
Theorem handleFileUpload_one_rejected (files : list File) (bad : File)
  (m : AppModel) :
  bad ∈ files ->
  readBase64 env bad = Rejected ->
  run env (handleFileUpload (Some files) m)
  = setError (Some "Failed to process one or more images.") m.
Proof.
  intros Hin Hbad. destruct files as [|f fs]; [by apply elem_of_nil in Hin|].
  unfold handleFileUpload, run.
  by rewrite (promise_all_rejected _ _ _ Hin Hbad).
Qed.

(** X4: capturing one file and then removing the thumbnail it was given
    (the last one) restores the capture list; the state differs from the
    original one only by the notice, which the upload cleared. *)
Theorem capture_then_remove_last (f : File) (p : string) (m : AppModel) :
  readBase64 env f = Fulfilled p ->
  removeImage (Z.of_nat (length (capturedImages m)))
    (run env (handleFileUpload (Some [f]) m))
  = setError None m.
Proof.
  intros Hf. unfold handleFileUpload, run. simpl. rewrite Hf.
  unfold removeImage, setCapturedImages, setError, filter_idx. simpl.
  f_equal.
  pose proof (filter_from_hit (capturedImages m ++ [p]) 0
                (length (capturedImages m))) as H.
  simpl in H. rewrite H by (rewrite length_app; simpl; lia).
  rewrite take_app_length.
  rewrite drop_ge by (rewrite length_app; simpl; lia).
  apply app_nil_r.
Qed.

(** X6: a session on the [IDLE] screen, whatever it uploads and removes,
    starts and ends on the screen it started on and leaves the
    ingredients and the recipes alone. *)
Theorem session_frame (acts : list (IdleAction File)) (m m' : AppModel) :
  session env acts m = Some m' ->
  state m' = state m /\
  ingredients m' = ingredients m /\
  recipes m' = recipes m.
Proof.
  revert m. induction acts as [|a acts IH]; intros m Hrun; simpl in Hrun.
  - by inversion Hrun.
  - destruct (offered a m); [|discriminate].
    destruct (IH _ Hrun) as (Hs & Hi & Hr).
    rewrite Hs, Hi, Hr. clear.
    destruct a as [[|f fs]|idx]; try (repeat split; fail).
    unfold perform, handleFileUpload, run.
    destruct (promise_all _); repeat split.
Qed.

End Capture.

(** ** The ingredient list *)

Lemma decimal_inj (n1 n2 : N) : decimal n1 = decimal n2 -> n1 = n2.
Proof.
  unfold decimal. intros H.
  assert (Hnn : forall n, N.to_uint n <> Decimal.Nil).
  { intros [|p]; [discriminate | apply DecimalPos.Unsigned.to_uint_nonnil]. }
  apply DecimalN.Unsigned.to_uint_inj.
  pose proof (NilZero.usu _ (Hnn n1)) as H1.
  pose proof (NilZero.usu _ (Hnn n2)) as H2.
  rewrite H in H1. congruence.
Qed.

Lemma manual_id_inj (n1 n2 : N) :
  "manual-" +:+ decimal n1 = "manual-" +:+ decimal n2 -> n1 = n2.
Proof. simpl. intros H. apply decimal_inj. by simplify_eq. Qed.

Lemma elem_of_map {A B} (f : A -> B) (l : list A) (y : B) :
  y ∈ map f l <-> exists x, y = f x /\ x ∈ l.
Proof.
  rewrite list_elem_of_In, in_map_iff. split.
  - intros (x & <- & Hx). exists x. by rewrite list_elem_of_In.
  - intros (x & -> & Hx). exists x. by rewrite <- list_elem_of_In.
Qed.

Lemma filter_sublist {A} (p : A -> bool) (l : list A) :
  List.filter p l `sublist_of` l.
Proof.
  induction l as [|x l IH]; simpl; [constructor|].
  destruct (p x); [by apply sublist_skip | by apply sublist_cons].
Qed.

Lemma filter_map_comm {A} (p : A -> bool) (f : A -> A) (l : list A) :
  (forall x, p (f x) = p x) ->
  List.filter p (map f l) = map f (List.filter p l).
Proof.
  intros H. induction l as [|x l IH]; simpl; [reflexivity|].
  rewrite H. destruct (p x); simpl; by rewrite IH.
Qed.

Lemma rename_ids (id0 n : string) (l : list Ingredient.t) :
  map Ingredient.id
    (map (fun ing => if String.eqb (Ingredient.id ing) id0
                     then Ingredient.with_name ing n else ing) l)
  = map Ingredient.id l.
Proof.
  rewrite map_map. apply map_ext. intros ing.
  by destruct (String.eqb _ _).
Qed.

(** X7: two manual additions append two ingredients named "New Item"
    with no alternates after the existing ones; the two get the same
    identifier exactly when they were made at the same [Date.now()]. *)
Theorem handleAddIngredient_twice (now1 now2 : N) (m : AppModel) :
  exists a b : Ingredient.t,
    ingredients (handleAddIngredient now2 (handleAddIngredient now1 m))
    = ingredients m ++ [a; b] /\
    Ingredient.name a = "New Item" /\ Ingredient.name b = "New Item" /\
    Ingredient.possibleAlternates a = [] /\
    Ingredient.possibleAlternates b = [] /\
    (Ingredient.id a = Ingredient.id b <-> now1 = now2).
Proof.
  do 2 eexists. split.
  - unfold handleAddIngredient. simpl. by rewrite <- app_assoc.
  - repeat split.
    + apply manual_id_inj.
    + by intros ->.
Qed.

(** X8: removing a manually added ingredient by its identifier gives back
    the state from before the addition, provided no earlier ingredient
    carries that identifier. *)
Theorem add_then_remove (now : N) (m : AppModel) :
  (forall ing, ing ∈ ingredients m ->
     Ingredient.id ing <> "manual-" +:+ decimal now) ->
  removeIngredient ("manual-" +:+ decimal now) (handleAddIngredient now m) = m.
Proof.
  intros Hfresh. destruct m as [st imgs ings recs err].
  unfold removeIngredient, handleAddIngredient, setIngredients. simpl in *.
  f_equal. rewrite List.filter_app. simpl.
  rewrite String.eqb_refl. simpl. rewrite app_nil_r.
  apply filter_all. intros ing Hing.
  apply Hfresh, String.eqb_neq in Hing. simpl in Hing. by rewrite Hing.
Qed.


(** X10: of two renamings of the same identifier the later one decides:
    typing a name and then accepting an alternate, or the reverse, leaves
    the state that the second edit alone would have left. *)
Theorem rename_last_wins (id0 n1 n2 : string) (m : AppModel) :
  updateIngredientName id0 n2 (updateIngredientName id0 n1 m)
  = updateIngredientName id0 n2 m /\
  swapIngredient id0 n2 (updateIngredientName id0 n1 m)
  = swapIngredient id0 n2 m /\
  updateIngredientName id0 n2 (swapIngredient id0 n1 m)
  = updateIngredientName id0 n2 m.
Proof.
  assert (H : forall l : list Ingredient.t,
             map (fun ing => if String.eqb (Ingredient.id ing) id0
                             then Ingredient.with_name ing n2 else ing)
               (map (fun ing => if String.eqb (Ingredient.id ing) id0
                                then Ingredient.with_name ing n1 else ing) l)
             = map (fun ing => if String.eqb (Ingredient.id ing) id0
                               then Ingredient.with_name ing n2 else ing) l).
  { intros l. rewrite map_map. apply map_ext. intros ing.
    destruct (String.eqb (Ingredient.id ing) id0) eqn:E; simpl; by rewrite E. }
  unfold updateIngredientName, swapIngredient, setIngredients. simpl.
  rewrite H. repeat split.
Qed.

(** X11: renamings of two different identifiers can be made in either
    order, and a removal can be exchanged with any renaming. *)
Theorem edits_commute (a b n1 n2 : string) (m : AppModel) :
  (a <> b ->
   updateIngredientName a n1 (updateIngredientName b n2 m)
   = updateIngredientName b n2 (updateIngredientName a n1 m)) /\
  removeIngredient a (updateIngredientName b n2 m)
  = updateIngredientName b n2 (removeIngredient a m).
Proof.
  unfold updateIngredientName, removeIngredient, setIngredients. simpl. split.
  - intros Hab. f_equal. rewrite !map_map. apply map_ext. intros ing.
    destruct (String.eqb (Ingredient.id ing) a) eqn:Ha;
      destruct (String.eqb (Ingredient.id ing) b) eqn:Hb;
      simpl; rewrite ?Ha, ?Hb; try reflexivity.
    apply String.eqb_eq in Ha. apply String.eqb_eq in Hb. congruence.
  - f_equal. apply filter_map_comm. intros ing.
    by destruct (String.eqb (Ingredient.id ing) b).
Qed.

Lemma unique_id_lists (l : list Ingredient.t) (i : nat) (ing : Ingredient.t)
  (n : string) :
  NoDup (map Ingredient.id l) ->
  l !! i = Some ing ->
  map (fun x => if String.eqb (Ingredient.id x) (Ingredient.id ing)
                then Ingredient.with_name x n else x) l
  = <[i := Ingredient.with_name ing n]> l /\
  List.filter
    (fun x => negb (String.eqb (Ingredient.id x) (Ingredient.id ing))) l
  = delete i l.
Proof.
  revert i. induction l as [|x l IH]; intros i Hnd Hi; [by destruct i|].
  simpl in Hnd. apply NoDup_cons in Hnd as [Hx Hnd].
  destruct i as [|i]; simpl in Hi.
  - inversion Hi; subst x. simpl. rewrite String.eqb_refl. simpl.
    assert (Hrest : forall y, y ∈ l ->
              String.eqb (Ingredient.id y) (Ingredient.id ing) = false).
    { intros y Hy. apply String.eqb_neq. intros Heq. apply Hx.
      apply elem_of_map. exists y. by split. }
    split.
    + f_equal. apply map_id_on. intros y Hy. by rewrite (Hrest y Hy).
    + apply filter_all. intros y Hy. by rewrite (Hrest y Hy).
  - assert (Hxi : String.eqb (Ingredient.id x) (Ingredient.id ing) = false).
    { apply String.eqb_neq. intros Heq. apply Hx. rewrite Heq.
      apply elem_of_map. exists ing. split; [reflexivity|].
      by apply list_elem_of_lookup_2 in Hi. }
    destruct (IH i Hnd Hi) as [IHm IHf].
    simpl. rewrite Hxi. simpl. split; f_equal; assumption.
Qed.

(** X12: no edit of the [EDITING] screen changes an identifier, so a list
    of pairwise different identifiers stays one under renaming, accepting
    an alternate and removal; after a manual addition it is one exactly
    when the identifier built from [Date.now()] was not in use. *)
Theorem unique_ids_preserved (m : AppModel) :
  NoDup (ingredientIds m) ->
  (forall id0 n : string,
      ingredientIds (updateIngredientName id0 n m) = ingredientIds m /\
      ingredientIds (swapIngredient id0 n m) = ingredientIds m /\
      NoDup (ingredientIds (removeIngredient id0 m))) /\
  (forall now : N,
      NoDup (ingredientIds (handleAddIngredient now m))
      <-> ("manual-" +:+ decimal now) ∉ ingredientIds m).
Proof.
  intros Hnd. unfold ingredientIds in *. split.
  - intros id0 n. split; [apply rename_ids|]. split; [apply rename_ids|].
    apply (sublist_NoDup _ _ Hnd).
    apply (fmap_sublist Ingredient.id). apply filter_sublist.
  - intros now. unfold handleAddIngredient. simpl.
    rewrite map_app. simpl. rewrite NoDup_app. split.
    + intros (_ & Hdisj & _) Hin. apply (Hdisj _ Hin). apply list_elem_of_here.
    + intros Hfresh. split; [exact Hnd|]. split.
      * intros x Hx Hx'. apply list_elem_of_singleton in Hx'. by subst x.
      * apply NoDup_singleton.
Qed.

(** X13: when the identifiers are pairwise different, an edit addressed to
    the identifier of the ingredient at position [i] touches that position
    only: renaming and accepting an alternate overwrite entry [i] with the
    renamed ingredient, and removal deletes entry [i]. *)
Theorem unique_id_edit_hits_one_entry (m : AppModel) (i : nat)
  (ing : Ingredient.t) (n : string) :
  NoDup (ingredientIds m) ->
  ingredients m !! i = Some ing ->
  ingredients (updateIngredientName (Ingredient.id ing) n m)
  = <[i := Ingredient.with_name ing n]> (ingredients m) /\
  ingredients (swapIngredient (Ingredient.id ing) n m)
  = <[i := Ingredient.with_name ing n]> (ingredients m) /\
  ingredients (removeIngredient (Ingredient.id ing) m)
  = delete i (ingredients m).
Proof.
  intros Hnd Hi.
  destruct (unique_id_lists (ingredients m) i ing n Hnd Hi) as [Hm Hf].
  unfold updateIngredientName, swapIngredient, removeIngredient. simpl.
  by rewrite Hm, Hf.
Qed.

(** ** The service calls *)

Section Service.

Context {File : Type}.

(** X14: whatever the service answers, [handleStartAnalysis] leaves the
    captured images and the recipes as they were, [handleGenerateRecipes]
    leaves the captured images and the ingredients as they were, and
    [handleMoreSuggestions] leaves the captured images and the ingredients
    as they were and keeps the recipes it found as the first recipes of
    the list. *)
Theorem service_calls_frame (env : Env File) (m : AppModel) :
  (capturedImages (run env (handleStartAnalysis m)) = capturedImages m /\
   recipes (run env (handleStartAnalysis m)) = recipes m) /\
  (capturedImages (run env (handleGenerateRecipes m)) = capturedImages m /\
   ingredients (run env (handleGenerateRecipes m)) = ingredients m) /\
  (capturedImages (run env (handleMoreSuggestions m)) = capturedImages m /\
   ingredients (run env (handleMoreSuggestions m)) = ingredients m /\
   recipes m `prefix_of` recipes (run env (handleMoreSuggestions m))).
Proof.
  split; [|split].
  - unfold handleStartAnalysis.
    destruct (length (capturedImages m) =? 0); simpl; [by split|].
    destruct (analyzeFridgeImage env _); by split.
  - unfold handleGenerateRecipes. simpl.
    destruct (generateRecipes env _ _); by split.
  - unfold handleMoreSuggestions. simpl.
    destruct (generateRecipes env _ _); simpl; repeat split.
    + by apply prefix_app_r.
    + reflexivity.
Qed.

(** X15: after an analysis that failed the analyse button is enabled
    again, and pressing it asks for the analysis of the same images; if
    that second call fulfils with [L], the application is on the [EDITING]
    screen with [L], the images and recipes it had, and no notice. *)
Theorem analysis_retry (env1 env2 : Env File) (m : AppModel)
  (L : list Ingredient.t) :
  capturedImages m <> [] ->
  analyzeFridgeImage env1 (capturedImages m) = Rejected ->
  analyzeFridgeImage env2 (capturedImages m) = Fulfilled L ->
  analyzeDisabled (run env1 (handleStartAnalysis m)) = false /\
  request (handleStartAnalysis (File:=File) (run env1 (handleStartAnalysis m)))
  = Some (Analyze (capturedImages m)) /\
  run env2 (handleStartAnalysis (run env1 (handleStartAnalysis m)))
  = {| state := EDITING; capturedImages := capturedImages m;
       ingredients := L; recipes := recipes m; error := None |}.
Proof.
  intros Hne Hko Hok. unfold handleStartAnalysis, analyzeDisabled.
  rewrite (nonempty_length_eqb _ Hne). simpl. rewrite Hko. simpl.
  rewrite (nonempty_length_eqb _ Hne). simpl. rewrite Hok.
  repeat split.
Qed.

(** X16: a generation that fails leaves the ingredients in place, so
    pressing the suggest button again asks for the same names; when that
    second call fulfils with [R] the application is on the [RESULTS]
    screen with [R] as recipes, and the notice of the failed attempt is
    still set, since this handler never clears it. *)
Theorem generation_retry (env1 env2 : Env File) (m : AppModel)
  (R : list Recipe.t) :
  generateRecipes env1 (map Ingredient.name (ingredients m)) None = Rejected ->
  generateRecipes env2 (map Ingredient.name (ingredients m)) None
  = Fulfilled R ->
  request (handleGenerateRecipes (File:=File)
             (run env1 (handleGenerateRecipes m)))
  = Some (Generate (map Ingredient.name (ingredients m)) None) /\
  run env2 (handleGenerateRecipes (run env1 (handleGenerateRecipes m)))
  = {| state := RESULTS; capturedImages := capturedImages m;
       ingredients := ingredients m; recipes := R;
       error := Some "Failed to generate recipes." |}.
Proof.
  intros Hko Hok. unfold handleGenerateRecipes. simpl.
  rewrite Hko. simpl. rewrite Hok. split; reflexivity.
Qed.

(** X17: two successful rounds of more suggestions accumulate: the second
    request excludes the titles of the recipes found at the start followed
    by those of the first round, and the final list is the recipes found
    at the start, then the first round, then the second. *)
Theorem more_suggestions_twice (env1 env2 : Env File) (m : AppModel)
  (R1 R2 : list Recipe.t) :
  generateRecipes env1 (map Ingredient.name (ingredients m))
    (Some (map Recipe.title (recipes m))) = Fulfilled R1 ->
  generateRecipes env2 (map Ingredient.name (ingredients m))
    (Some (map Recipe.title (recipes m) ++ map Recipe.title R1))
  = Fulfilled R2 ->
  request (handleMoreSuggestions (File:=File)
             (run env1 (handleMoreSuggestions m)))
  = Some (Generate (map Ingredient.name (ingredients m))
            (Some (map Recipe.title (recipes m) ++ map Recipe.title R1))) /\
  recipes (run env2 (handleMoreSuggestions (run env1 (handleMoreSuggestions m))))
  = recipes m ++ R1 ++ R2 /\
  state (run env2 (handleMoreSuggestions (run env1 (handleMoreSuggestions m))))
  = RESULTS.
Proof.
  intros H1 H2. unfold handleMoreSuggestions. simpl.
  rewrite H1. simpl. rewrite map_app, H2. simpl.
  by rewrite <- app_assoc.
Qed.

(** X18: the names sent for generation are the names as edited: after an
    alternate was accepted for [id], the request carries that alternate at
    every position whose ingredient has the identifier [id] and the former
    name elsewhere; after a removal it carries the names of the remaining
    ingredients only. *)
Theorem generation_uses_edited_names (id0 alt : string) (m : AppModel) :
  request (handleGenerateRecipes (File:=File) (swapIngredient id0 alt m))
  = Some (Generate
            (map (fun ing => if String.eqb (Ingredient.id ing) id0
                             then alt else Ingredient.name ing)
                 (ingredients m)) None) /\
  request (handleGenerateRecipes (File:=File) (removeIngredient id0 m))
  = Some (Generate
            (map Ingredient.name
               (List.filter
                  (fun ing => negb (String.eqb (Ingredient.id ing) id0))
                  (ingredients m))) None).
Proof.
  split; [|reflexivity].
  unfold handleGenerateRecipes, swapIngredient. simpl.
  rewrite map_map. do 2 f_equal. apply map_ext. intros ing.
  by destruct (String.eqb _ _).
Qed.

(** ** The interface as a whole *)

Lemma act_settled (env : Env File) (a : UserAction File) (m : AppModel) :
  settled m -> available a m = true -> settled (act env a m).
Proof.
  destruct m as [st imgs ings recs err].
  unfold settled, available, captureEnabled, analyzeDisabled.
  intros Hm Ha.
  destruct a as [files|idx| |now|id0 n|id0 alt|id0| | | |].
  - (* a selection of files *)
    destruct st; simpl in Ha; try discriminate Ha.
    destruct files as [|f fs]; [exact Hm|].
    unfold act, handleFileUpload, run.
    destruct (promise_all _); exact Hm.
  - destruct st; simpl in Ha; try discriminate Ha. exact Hm.
  - (* analyse *)
    destruct st; simpl in Ha; try discriminate Ha.
    destruct imgs as [|i imgs]; [discriminate Ha|].
    unfold act, handleStartAnalysis, run. simpl.
    destruct (analyzeFridgeImage env _); simpl; [|exact Hm].
    simpl in Hm. destruct Hm as [_ Hr]. split; [discriminate | exact Hr].
  - destruct st; simpl in Ha; try discriminate Ha. exact Hm.
  - destruct st; simpl in Ha; try discriminate Ha. exact Hm.
  - destruct st; simpl in Ha; try discriminate Ha. exact Hm.
  - destruct st; simpl in Ha; try discriminate Ha. exact Hm.
  - (* suggest *)
    destruct st; simpl in Ha; try discriminate Ha.
    unfold act, handleGenerateRecipes, run. simpl.
    destruct (generateRecipes env _ _); simpl; [|exact Hm].
    simpl in Hm. tauto.
  - (* more *)
    destruct st; simpl in Ha; try discriminate Ha.
    unfold act, handleMoreSuggestions, run. simpl.
    destruct (generateRecipes env _ _); exact Hm.
  - (* reset *)
    destruct st; simpl in Ha; try discriminate Ha. by split.
  - (* dismiss *)
    destruct st; exact Hm.
Qed.

(** X19: starting from the initial state and going through controls the
    render offers, with each handler run to completion before the next
    action and whatever the collaborators answer, the application is
    between actions never on the [ANALYZING] or [GENERATING] screen; on
    [IDLE] it holds no ingredient and no recipe, on [EDITING] it holds at
    least one image and no recipe, on [RESULTS] at least one image. *)
Theorem usage_settled (steps : list (Env File * UserAction File))
  (m' : AppModel) :
  usage steps initial = Some m' -> settled m'.
Proof.
  assert (Hinit : settled initial) by (by split).
  revert Hinit. generalize initial.
  induction steps as [|[env a] steps IH]; intros m Hm Hrun; simpl in Hrun.
  - by inversion Hrun; subst.
  - destruct (available a m) eqn:Ha; [|discriminate].
    apply (IH (act env a m)); [|exact Hrun].
    by apply act_settled.
Qed.

(** X20: the full cycle is available through the interface: picking a
    non-empty selection whose files are all read, analysing, and asking
    for suggestions, with a service that answers [L] and then [R], leads
    from the initial state to the [RESULTS] screen holding the payloads,
    [L] and [R]; pressing reset there gives the initial state again. *)
Theorem full_cycle (env : Env File) (f : File) (fs : list File)
  (payloads : list string) (L : list Ingredient.t) (R : list Recipe.t) :
  Forall2 (fun file p => readBase64 env file = Fulfilled p) (f :: fs) payloads ->
  analyzeFridgeImage env payloads = Fulfilled L ->
  generateRecipes env (map Ingredient.name L) None = Fulfilled R ->
  usage [(env, PickFiles (f :: fs)); (env, ClickAnalyze); (env, ClickSuggest)]
    initial
  = Some {| state := RESULTS; capturedImages := payloads; ingredients := L;
            recipes := R; error := None |} /\
  usage [(env, PickFiles (f :: fs)); (env, ClickAnalyze); (env, ClickSuggest);
         (env, ClickReset)] initial
  = Some initial.
Proof.
  intros Hall Han Hgen.
  assert (Hup : run env (handleFileUpload (Some (f :: fs)) initial)
                = setCapturedImages (fun _ => payloads) initial).
  { unfold handleFileUpload, run.
    by rewrite (promise_all_fulfilled _ _ _ Hall). }
  assert (Hne : payloads <> []).
  { intros ->. apply Forall2_length in Hall. discriminate Hall. }
  cbn [usage].
  change (available (PickFiles (f :: fs)) initial) with true.
  cbn [act]. rewrite Hup.
  destruct payloads as [|p ps]; [done|].
  simpl. rewrite Han. simpl. rewrite Hgen. split; reflexivity.
Qed.

End Service.

(** ** Instances of the further properties *)

Lemma removeImage_removes_exactly_example :
  1 < length (capturedImages Scenario.three_images) /\
  removeImage 1 Scenario.three_images
  = setCapturedImages (fun _ => ["a"; "c"]) Scenario.three_images.
Proof.
  split; [simpl; lia|].
  destruct (removeImage_removes_exactly 1 Scenario.three_images)
    as (_ & _ & _ & H); [simpl; lia|].
  exact H.
Defined.

Lemma handleFileUpload_all_read_example :
  run Sample.online (handleFileUpload (Some ["d"; "e"]) Scenario.three_images)
  = {| state := IDLE; capturedImages := ["a"; "b"; "c"; "d"; "e"];
       ingredients := []; recipes := []; error := None |}.
Proof.
  destruct (handleFileUpload_all_read Sample.online "d" ["e"] ["d"; "e"]
              Scenario.three_images) as (_ & H & _).
  - repeat constructor.
  - exact H.
Defined.

Lemma handleFileUpload_one_rejected_example :
  "bad" ∈ ["d"; "bad"; "e"] /\
  readBase64 Scenario.flaky "bad" = Rejected /\
  run Scenario.flaky
    (handleFileUpload (Some ["d"; "bad"; "e"]) Sample.one_image)
  = {| state := IDLE; capturedImages := ["imgA"]; ingredients := [];
       recipes := [];
       error := Some "Failed to process one or more images." |}.
Proof.
  assert (Hin : "bad" ∈ ["d"; "bad"; "e"])
    by (apply list_elem_of_further, list_elem_of_here).
  split; [exact Hin|]. split; [reflexivity|].
  exact (handleFileUpload_one_rejected Scenario.flaky ["d"; "bad"; "e"] "bad"
           Sample.one_image Hin eq_refl).
Defined.

Lemma capture_then_remove_last_example :
  removeImage 3
    (run Sample.online (handleFileUpload (Some ["d"]) Scenario.three_images))
  = setError None Scenario.three_images.
Proof.
  exact (capture_then_remove_last Sample.online "d" "d" Scenario.three_images
           eq_refl).
Defined.


Lemma session_frame_example :
  state (setCapturedImages (fun _ => ["y"; "z"]) initial) = state initial /\
  ingredients (setCapturedImages (fun _ => ["y"; "z"]) initial)
  = ingredients initial /\
  recipes (setCapturedImages (fun _ => ["y"; "z"]) initial) = recipes initial.
Proof.
  exact (session_frame Sample.online Scenario.shots initial _ eq_refl).
Defined.

Lemma add_then_remove_example :
  removeIngredient "manual-42" (handleAddIngredient 42 Sample.editing)
  = Sample.editing.
Proof.
  apply (add_then_remove 42 Sample.editing).
  intros ing Hing. apply list_elem_of_In in Hing. simpl in Hing.
  destruct Hing as [<-|[<-|[]]]; simpl; discriminate.
Defined.

Lemma edits_commute_example :
  updateIngredientName "1" "Oat milk"
    (updateIngredientName "2" "Duck eggs" Sample.editing)
  = updateIngredientName "2" "Duck eggs"
      (updateIngredientName "1" "Oat milk" Sample.editing).
Proof.
  destruct (edits_commute "1" "2" "Oat milk" "Duck eggs" Sample.editing)
    as (H & _).
  apply H. discriminate.
Defined.

Lemma editing_ids_unique : NoDup (ingredientIds Sample.editing).
Proof.
  unfold ingredientIds. simpl.
  apply NoDup_cons_2; [|apply NoDup_singleton].
  intros H. apply list_elem_of_singleton in H. discriminate H.
Defined.

Lemma unique_ids_preserved_example :
  NoDup (ingredientIds (removeIngredient "1" Sample.editing)) /\
  (NoDup (ingredientIds (handleAddIngredient 42 Sample.editing))
   <-> "manual-42" ∉ ingredientIds Sample.editing).
Proof.
  destruct (unique_ids_preserved Sample.editing editing_ids_unique)
    as (Hedit & Hadd).
  split; [apply (Hedit "1" "")|apply (Hadd 42%N)].
Defined.

Lemma unique_id_edit_hits_one_entry_example :
  ingredients (swapIngredient "1" "Cream" Sample.editing)
  = <[0 := Ingredient.with_name Sample.milk "Cream"]>
      (ingredients Sample.editing) /\
  ingredients (removeIngredient "1" Sample.editing)
  = delete 0 (ingredients Sample.editing).
Proof.
  destruct (unique_id_edit_hits_one_entry Sample.editing 0 Sample.milk "Cream"
              editing_ids_unique eq_refl) as (_ & Hswap & Hrem).
  split; assumption.
Defined.

Lemma analysis_retry_example :
  run Sample.online
    (handleStartAnalysis
       (run Sample.offline (handleStartAnalysis Sample.one_image)))
  = {| state := EDITING; capturedImages := ["imgA"];
       ingredients := [Sample.milk]; recipes := []; error := None |}.
Proof.
  destruct (analysis_retry Sample.offline Sample.online Sample.one_image
              [Sample.milk]) as (_ & _ & H);
    [simpl; discriminate | reflexivity | reflexivity | exact H].
Defined.

Lemma generation_retry_example :
  run Sample.online
    (handleGenerateRecipes
       (run Sample.offline (handleGenerateRecipes Sample.editing)))
  = {| state := RESULTS; capturedImages := ["imgA"];
       ingredients := [Sample.milk; Sample.eggs];
       recipes := [Sample.custard];
       error := Some "Failed to generate recipes." |}.
Proof.
  destruct (generation_retry Sample.offline Sample.online Sample.editing
              [Sample.custard]) as (_ & H);
    [reflexivity | reflexivity | exact H].
Defined.

Lemma more_suggestions_twice_example :
  recipes
    (run Sample.online
       (handleMoreSuggestions
          (run Sample.online (handleMoreSuggestions Sample.results))))
  = [Sample.custard; Sample.omelette; Sample.omelette].
Proof.
  destruct (more_suggestions_twice Sample.online Sample.online Sample.results
              [Sample.omelette] [Sample.omelette]) as (_ & H & _);
    [reflexivity | reflexivity | exact H].
Defined.

Lemma usage_settled_example :
  usage Scenario.evening initial = Some Scenario.evening_end /\
  settled Scenario.evening_end.
Proof.
  split; [reflexivity|].
  exact (usage_settled Scenario.evening Scenario.evening_end eq_refl).
Defined.

Lemma full_cycle_example :
  usage [(Sample.online, PickFiles ["imgA"]); (Sample.online, ClickAnalyze);
         (Sample.online, ClickSuggest); (Sample.online, ClickReset)] initial
  = Some initial.
Proof.
  destruct (full_cycle Sample.online "imgA" [] ["imgA"] [Sample.milk]
              [Sample.custard]) as (_ & H);
    [repeat constructor | reflexivity | reflexivity | exact H].
Defined.
